(** * Inventory store: a shallow embedding of [cleaned_inventory_system.py]

    The module keeps one global dictionary, [stock_data], from item keys to
    quantities, mutates it through [add_item] and [remove_item], reads it
    through [get_qty] and [check_low_items], and moves it to and from a JSON
    file with [save_data] and [load_data].

    Python objects are embedded as the type [value]; the dictionary as an
    insertion-ordered association list; the effects of the module (the
    global, the caller's log lists, the file system, what is printed, the
    clock) as one record, [world], threaded through a state-and-exception
    monad in which a raised exception keeps the state reached so far. *)

From Stdlib Require Import ZArith.
From stdpp Require Import base option list strings pretty gmap.

#[local] Open Scope Z_scope.

(** ** Python objects *)

(** The objects the development ranges over: [int], [str] and [None].  They
    serve both as item keys and as quantities, as in the source, which
    restricts neither ([add_item(123, "ten")] in [main]).  Floats, booleans
    and containers are outside the embedding. *)
Inductive value : Type :=
  | PInt (n : Z)
  | PStr (s : string)
  | PNone.

#[global] Instance value_eq_dec : EqDecision value.
Proof. solve_decision. Defined.

(** The exceptions the module can meet. *)
Inductive exn : Type :=
  | TypeError
  | KeyError (k : value)
  | FileNotFoundError (path : string)
  | JSONDecodeError (msg : string).

Inductive result (A : Type) : Type :=
  | Ret (a : A)
  | Raise (e : exn).
Arguments Ret {A} a.
Arguments Raise {A} e.

(** [bool(x)]: zero, the empty string and [None] are falsy. *)
Definition truthy (x : value) : bool :=
  match x with
  | PInt n => negb (n =? 0)
  | PStr s => negb (String.eqb s EmptyString)
  | PNone => false
  end.

(** [str(x)], as used by the f-strings. *)
Definition py_str (x : value) : string :=
  match x with
  | PInt n => pretty n
  | PStr s => s
  | PNone => "None"
  end.

(** [a + b] *)
Definition py_add (a b : value) : result value :=
  match a, b with
  | PInt x, PInt y => Ret (PInt (x + y))
  | PStr x, PStr y => Ret (PStr (x +:+ y))
  | _, _ => Raise TypeError
  end.

(** [a - b] *)
Definition py_sub (a b : value) : result value :=
  match a, b with
  | PInt x, PInt y => Ret (PInt (x - y))
  | _, _ => Raise TypeError
  end.

(** [a < b]: numeric on [int], lexicographic on [str], a [TypeError]
    between unlike types and on [None]. *)
Definition py_lt (a b : value) : result bool :=
  match a, b with
  | PInt x, PInt y => Ret (x <? y)
  | PStr x, PStr y => Ret (String.ltb x y)
  | _, _ => Raise TypeError
  end.

(** [a <= b] *)
Definition py_le (a b : value) : result bool :=
  match a, b with
  | PInt x, PInt y => Ret (x <=? y)
  | PStr x, PStr y => Ret (String.leb x y)
  | _, _ => Raise TypeError
  end.

(** ** Dictionaries

    A [dict] lists its entries in insertion order.  Assigning to a key that
    is present keeps its position; deleting a key and adding it again puts it
    last. *)
Definition dict : Type := list (value * value).

Definition dict_keys (d : dict) : list value := d.*1.

(** The representation invariant: no key occurs twice. *)
Definition dict_wf (d : dict) : Prop := NoDup (dict_keys d).

(** [d.get(k)], [None] when the key is absent. *)
Fixpoint dict_get (d : dict) (k : value) : option value :=
  match d with
  | [] => None
  | (k', v) :: d' => if decide (k' = k) then Some v else dict_get d' k
  end.

(** [d[k] = v] *)
Fixpoint dict_set (d : dict) (k v : value) : dict :=
  match d with
  | [] => [(k, v)]
  | (k', v') :: d' =>
      if decide (k' = k) then (k', v) :: d' else (k', v') :: dict_set d' k v
  end.

(** [del d[k]] on a key that is present. *)
Fixpoint dict_del (d : dict) (k : value) : dict :=
  match d with
  | [] => []
  | (k', v') :: d' =>
      if decide (k' = k) then d' else (k', v') :: dict_del d' k
  end.

(** ** JSON documents and files

    A file is represented by what [json.loads] makes of its text: either the
    members of a JSON object, in the order of the text and with the repeated
    names a text may hold, or a text the decoder rejects, with the decoder's
    message.  Texts holding another JSON value at the root are outside the
    embedding. *)
Definition document : Type := list (string * value).

Inductive file : Type :=
  | Doc (members : document)
  | Undecodable (msg : string).

(** The name [json.dumps] writes for a dictionary key: a [str] as it is, an
    [int] in decimal, [None] as [null]. *)
Definition json_key (k : value) : string :=
  match k with
  | PStr s => s
  | PInt n => pretty n
  | PNone => "null"
  end.

(** [json.dumps(d)]: one member per entry, in the dictionary's order. *)
Definition json_dumps (d : dict) : document :=
  (fun kv => (json_key kv.1, kv.2)) <$> d.

(** The dictionary the decoder builds from the members of an object: they are
    assigned one after the other, so that a repeated name keeps the place of
    its first member and the value of its last. *)
Definition dict_of_members (ms : document) : dict :=
  foldl (fun d kv => dict_set d (PStr kv.1) kv.2) [] ms.

(** [json.loads(text)] *)
Definition json_loads (f : file) : result dict :=
  match f with
  | Doc ms => Ret (dict_of_members ms)
  | Undecodable msg => Raise (JSONDecodeError msg)
  end.

(** ** The world *)

(** A caller-owned Python list is named by its location. *)
Definition loc : Type := nat.

Record world : Type := World {
  stock_data : dict;                  (* the module's global *)
  lists : gmap loc (list string);     (* the list objects callers own *)
  files : gmap string file;           (* the file system, by path *)
  stdout : list string;               (* the lines printed so far *)
  clock : nat -> string;              (* the text of the n-th [datetime.now()] *)
  ticks : nat                         (* how many times the clock was read *)
}.

Definition with_stock_data (d : dict) (w : world) : world :=
  World d (lists w) (files w) (stdout w) (clock w) (ticks w).
Definition with_lists (ls : gmap loc (list string)) (w : world) : world :=
  World (stock_data w) ls (files w) (stdout w) (clock w) (ticks w).
Definition with_files (fs : gmap string file) (w : world) : world :=
  World (stock_data w) (lists w) fs (stdout w) (clock w) (ticks w).
Definition with_stdout (out : list string) (w : world) : world :=
  World (stock_data w) (lists w) (files w) out (clock w) (ticks w).
Definition with_ticks (n : nat) (w : world) : world :=
  World (stock_data w) (lists w) (files w) (stdout w) (clock w) n.

(** ** The monad of the module's functions

    A computation takes the world and gives a result, or an exception,
    together with the world it leaves: what was mutated before a [raise]
    stays mutated. *)
Definition M (A : Type) : Type := world -> result A * world.

Definition ret {A} (a : A) : M A := fun w => (Ret a, w).
Definition raise {A} (e : exn) : M A := fun w => (Raise e, w).
Definition bind {A B} (m : M A) (k : A -> M B) : M B :=
  fun w =>
    match m w with
    | (Ret a, w') => k a w'
    | (Raise e, w') => (Raise e, w')
    end.

(** A pure operation that may raise. *)
Definition lift {A} (r : result A) : M A := fun w => (r, w).

(** [try: m  except ...: h e]: the handler [h] says which exceptions it
    catches; the others propagate. *)
Definition try_except {A} (m : M A) (h : exn -> option (M A)) : M A :=
  fun w =>
    match m w with
    | (Ret a, w') => (Ret a, w')
    | (Raise e, w') =>
        match h e with
        | Some k => k w'
        | None => (Raise e, w')
        end
    end.

Declare Scope py_scope.
Delimit Scope py_scope with py.
Notation "x <- m ;; k" := (bind m (fun x => k))
  (at level 100, m at next level, right associativity) : py_scope.
Notation "m ;;; k" := (bind m (fun _ => k))
  (at level 100, right associativity) : py_scope.
#[local] Open Scope py_scope.

(** Primitive effects. *)
Definition read_global : M dict := fun w => (Ret (stock_data w), w).
Definition write_global (d : dict) : M unit :=
  fun w => (Ret tt, with_stock_data d w).

(** [d[k]] *)
Definition getitem (d : dict) (k : value) : M value :=
  match dict_get d k with
  | Some v => ret v
  | None => raise (KeyError k)
  end.

(** [str(datetime.now())] *)
Definition datetime_now : M string :=
  fun w => (Ret (clock w (ticks w)), with_ticks (S (ticks w)) w).

(** [logs.append(s)].  With [logs] left to its default the list was made in
    the call and is dropped at return: nothing of the world changes. *)
Definition list_append (logs : option loc) (s : string) : M unit :=
  match logs with
  | Some l => fun w => (Ret tt, with_lists (alter (fun xs => xs ++ [s]) l (lists w)) w)
  | None => ret tt
  end.

(** [print(s)] *)
Definition print (s : string) : M unit :=
  fun w => (Ret tt, with_stdout (stdout w ++ [s]) w).

(** [open(path, "r").read()] *)
Definition read_file (path : string) : M file :=
  fun w =>
    match files w !! path with
    | Some f => (Ret f, w)
    | None => (Raise (FileNotFoundError path), w)
    end.

(** [open(path, "w").write(text)] *)
Definition write_file (path : string) (f : file) : M unit :=
  fun w => (Ret tt, with_files (<[path := f]> (files w)) w).

(** ** The functions of the module *)

(** [add_item(item="default", qty=0, logs=None)].  The arguments are given in
    full here; [logs] is [None] for the default. *)
Definition add_item (item qty : value) (logs : option loc) : M unit :=
  if negb (truthy item) then ret tt
  else
    d <- read_global ;;
    v <- lift (py_add (default (PInt 0) (dict_get d item)) qty) ;;
    write_global (dict_set d item v) ;;;
    now <- datetime_now ;;
    list_append logs (now +:+ ": Added " +:+ py_str qty +:+ " of " +:+ py_str item).

(** [remove_item(item, qty)] *)
Definition remove_item (item qty : value) : M unit :=
  try_except
    (d <- read_global ;;
     old <- getitem d item ;;
     new <- lift (py_sub old qty) ;;
     write_global (dict_set d item new) ;;;
     d <- read_global ;;
     cur <- getitem d item ;;
     nonpositive <- lift (py_le cur (PInt 0)) ;;
     if (nonpositive : bool) then write_global (dict_del d item) else ret tt)
    (fun e => match e with KeyError _ => Some (ret tt) | _ => None end).

(** [get_qty(item)] *)
Definition get_qty (item : value) : M value :=
  d <- read_global ;;
  ret (default (PInt 0) (dict_get d item)).

Definition default_file : string := "inventory.json".

(** [load_data(file="inventory.json")] *)
Definition load_data (file : option string) : M unit :=
  let file := default default_file file in
  try_except
    (f <- read_file file ;;
     d <- lift (json_loads f) ;;
     write_global d)
    (fun e =>
       match e with
       | FileNotFoundError _ => Some (write_global [])
       | JSONDecodeError msg =>
           Some (print ("Error decoding JSON data in " +:+ file +:+ ": " +:+ msg))
       | _ => None
       end).

(** [save_data(file="inventory.json")] *)
Definition save_data (file : option string) : M unit :=
  let file := default default_file file in
  d <- read_global ;;
  write_file file (Doc (json_dumps d)).

(** The loop of [check_low_items]: [result] is the list built so far. *)
Fixpoint low_scan (items : dict) (threshold : value) (result : list value)
  : M (list value) :=
  match items with
  | [] => ret result
  | (item, qty) :: rest =>
      low <- lift (py_lt qty threshold) ;;
      low_scan rest threshold (if (low : bool) then result ++ [item] else result)
  end.

Definition default_threshold : value := PInt 5.

(** [check_low_items(threshold=5)] *)
Definition check_low_items (threshold : option value) : M (list value) :=
  let threshold := default default_threshold threshold in
  d <- read_global ;;
  low_scan d threshold [].

(** [print_data()] *)
Definition print_data : M unit :=
  print "Items Report" ;;;
  d <- read_global ;;
  foldr (fun kv rest => print (py_str kv.1 +:+ " -> " +:+ py_str kv.2) ;;; rest)
        (ret tt) d.

(** Running a computation: its result and the world it leaves. *)
Definition outcome {A} (m : M A) (w : world) : result A := (m w).1.
Definition after {A} (m : M A) (w : world) : world := (m w).2.

(** A world at start-up: empty global, given lists and files. *)
Definition initial (ls : gmap loc (list string)) (fs : gmap string file) : world :=
  World [] ls fs [] (fun n => "day " +:+ pretty n) 0.

(** ** The vocabulary of the specification *)

(** A store as the specification has it: every quantity is an integer. *)
Definition is_int (v : value) : bool :=
  match v with PInt _ => true | _ => false end.

Definition int_valued (d : dict) : Prop :=
  Forall (fun kv => is_int kv.2 = true) d.

(** The keys whose quantity is strictly below [t], in the order of the
    dictionary. *)
Definition below (t : Z) (kv : value * value) : bool :=
  match kv.2 with
  | PInt n => n <? t
  | _ => false
  end.

Definition low_keys (t : Z) (d : dict) : list value :=
  (List.filter (below t) d).*1.

(** The entries [check_low_items] selects for an arbitrary threshold: those
    for which [qty < threshold] is true. *)
Definition is_low (threshold : value) (kv : value * value) : bool :=
  match py_lt kv.2 threshold with
  | Ret true => true
  | _ => false
  end.


(** ** Sample worlds *)

(** The store after the two [add_item] calls that open [main]. *)
Definition apple_banana_world : world :=
  after (add_item (PStr "apple") (PInt 10) None ;;;
         add_item (PStr "banana") (PInt (-2)) None) (initial ∅ ∅).


(** A store holding one item, next to an [inventory.json] that is not JSON. *)
Definition garbled_file_world : world :=
  after (add_item (PStr "apple") (PInt 10) None)
        (initial ∅ {[ default_file := Undecodable "Expecting value: line 1 column 1 (char 0)" ]}).

(** A caller that owns one log list and has credited one item through it. *)
Definition logged_world : world :=
  after (add_item (PStr "apple") (PInt 10) (Some 0%nat))
        (initial {[ 0%nat := [] ]} ∅).

(** The store [{a: 10, b: 3, c: 5}]. *)
Definition abc_world : world :=
  after (add_item (PStr "a") (PInt 10) None ;;;
         add_item (PStr "b") (PInt 3) None ;;;
         add_item (PStr "c") (PInt 5) None) (initial ∅ ∅).

(** ** [main] and further vocabulary *)

(** [main()].  [print] with two arguments writes their [str] forms with a
    space between.  The text [str] gives for a list is outside the embedding
    and is an argument, [list_str]. *)
Definition main (list_str : list value -> string) : M unit :=
  add_item (PStr "apple") (PInt 10) None ;;;
  add_item (PStr "banana") (PInt (-2)) None ;;;
  add_item (PInt 123) (PStr "ten") None ;;;
  remove_item (PStr "apple") (PInt 3) ;;;
  remove_item (PStr "orange") (PInt 1) ;;;
  qty <- get_qty (PStr "apple") ;;
  print ("Apple stock: " +:+ py_str qty) ;;;
  low <- check_low_items None ;;
  print ("Low items: " +:+ list_str low) ;;;
  save_data None ;;;
  load_data None ;;;
  print_data.



(** A store in which every quantity is an integer above zero. *)
Definition is_positive (v : value) : bool :=
  match v with PInt n => 0 <? n | _ => false end.

Definition all_positive (d : dict) : Prop :=
  Forall (fun kv => is_positive kv.2 = true) d.





(** * Properties *)

(** ** Dictionaries *)

Section dict_facts.

Implicit Types (d : dict) (k v : value).

Lemma dict_get_None d k : dict_get d k = None <-> k ∉ dict_keys d.
Proof.
  unfold dict_keys. induction d as [|[k' v'] d IH]; simpl.
  - split; [intros _; apply not_elem_of_nil | done].
  - rewrite not_elem_of_cons. case_decide; subst; [intuition congruence|].
    rewrite IH. intuition congruence.
Qed.

Lemma dict_get_Some_elem d k v : dict_get d k = Some v -> (k, v) ∈ d.
Proof.
  induction d as [|[k' v'] d IH]; simpl; [done|].
  case_decide; subst.
  - intros [= ->]. apply list_elem_of_here.
  - intros H'. apply list_elem_of_further. auto.
Qed.

Lemma dict_elem_get d k v : dict_wf d -> (k, v) ∈ d -> dict_get d k = Some v.
Proof.
  unfold dict_wf, dict_keys. induction d as [|[k' v'] d IH]; simpl.
  - intros _ H'. by apply elem_of_nil in H'.
  - rewrite NoDup_cons. intros [Hk Hd] [[= -> ->]|Hin]%elem_of_cons.
    + by rewrite decide_True.
    + rewrite decide_False; [auto|].
      intros ->. apply Hk. apply list_elem_of_fmap. by exists (k, v).
Qed.

Lemma dict_get_set_eq d k v : dict_get (dict_set d k v) k = Some v.
Proof.
  induction d as [|[k' v'] d IH]; simpl.
  - by rewrite decide_True.
  - case_decide; subst; simpl; [by rewrite decide_True|].
    by rewrite decide_False.
Qed.

Lemma dict_get_set_ne d k k' v :
  k <> k' -> dict_get (dict_set d k v) k' = dict_get d k'.
Proof.
  intros Hne. induction d as [|[k0 v0] d IH]; simpl.
  - by rewrite decide_False.
  - case_decide; subst; simpl; [by rewrite !decide_False|].
    by rewrite IH.
Qed.

Lemma dict_set_fresh d k v :
  k ∉ dict_keys d -> dict_set d k v = d ++ [(k, v)].
Proof.
  unfold dict_keys. induction d as [|[k' v'] d IH]; simpl; [done|].
  rewrite not_elem_of_cons. intros [Hne Hd].
  rewrite decide_False by done. by rewrite IH.
Qed.

Lemma dict_keys_set d k v k' :
  k' ∈ dict_keys (dict_set d k v) <-> k' = k \/ k' ∈ dict_keys d.
Proof.
  unfold dict_keys. induction d as [|[k0 v0] d IH]; simpl.
  - rewrite list_elem_of_singleton. split; [auto|].
    intros [?|H']; [done|]. by apply elem_of_nil in H'.
  - case_decide; subst; simpl; rewrite !elem_of_cons; [tauto|].
    rewrite IH. tauto.
Qed.

Lemma dict_wf_set d k v : dict_wf d -> dict_wf (dict_set d k v).
Proof.
  unfold dict_wf. induction d as [|[k0 v0] d IH]; simpl.
  - intros _. apply NoDup_singleton.
  - unfold dict_keys in *. simpl. rewrite NoDup_cons. intros [Hk Hd].
    case_decide; subst; simpl; rewrite NoDup_cons; [done|].
    split; [|auto].
    intros [?|?]%(dict_keys_set d k v k0); [congruence|done].
Qed.

Lemma dict_keys_del d k k' :
  k' ∈ dict_keys (dict_del d k) -> k' ∈ dict_keys d.
Proof.
  unfold dict_keys. induction d as [|[k0 v0] d IH]; simpl; [done|].
  case_decide; subst; simpl; rewrite !elem_of_cons; tauto.
Qed.

Lemma dict_del_absent d k : dict_wf d -> k ∉ dict_keys (dict_del d k).
Proof.
  unfold dict_wf, dict_keys. induction d as [|[k0 v0] d IH]; simpl.
  - intros _. apply not_elem_of_nil.
  - rewrite NoDup_cons. intros [Hk Hd].
    case_decide; subst; simpl; [done|].
    rewrite not_elem_of_cons. auto.
Qed.

Lemma dict_get_del_ne d k k' :
  k <> k' -> dict_get (dict_del d k) k' = dict_get d k'.
Proof.
  intros Hne. induction d as [|[k0 v0] d IH]; simpl; [done|].
  case_decide; subst; simpl; [by rewrite decide_False|].
  by rewrite IH.
Qed.

Lemma dict_wf_del d k : dict_wf d -> dict_wf (dict_del d k).
Proof.
  unfold dict_wf. induction d as [|[k0 v0] d IH]; simpl; [done|].
  unfold dict_keys in *. simpl. rewrite NoDup_cons. intros [Hk Hd].
  case_decide; subst; simpl; [done|].
  rewrite NoDup_cons. split; [|auto].
  intros Hin. apply Hk. by apply (dict_keys_del d k k0).
Qed.
End dict_facts.

(** ** Running the module's functions *)


(** [get_qty] reads the global and nothing else. *)
Lemma get_qty_run item w :
  get_qty item w = (Ret (default (PInt 0) (dict_get (stock_data w) item)), w).
Proof. reflexivity. Qed.

(** What a call of [add_item] on a truthy key does when the addition is
    defined: one assignment, one reading of the clock, one record. *)
Lemma add_item_run item qty logs w v :
  truthy item = true ->
  py_add (default (PInt 0) (dict_get (stock_data w) item)) qty = Ret v ->
  add_item item qty logs w =
    list_append logs
      (clock w (ticks w) +:+ ": Added " +:+ py_str qty +:+ " of " +:+ py_str item)
      (with_ticks (S (ticks w)) (with_stock_data (dict_set (stock_data w) item v) w)).
Proof.
  intros Ht Hadd. unfold add_item. rewrite Ht. simpl.
  unfold bind, read_global, lift, write_global, datetime_now. simpl.
  by rewrite Hadd.
Qed.

(** The store after a call of [add_item] that returns. *)
Lemma add_item_store item qty logs w v :
  truthy item = true ->
  py_add (default (PInt 0) (dict_get (stock_data w) item)) qty = Ret v ->
  outcome (add_item item qty logs) w = Ret tt
  /\ stock_data (after (add_item item qty logs) w)
     = dict_set (stock_data w) item v.
Proof.
  intros Ht Hadd. unfold outcome, after.
  rewrite (add_item_run item qty logs w v Ht Hadd). by destruct logs.
Qed.

(** ** [add_item] *)

(** C6.  With a falsy key (the empty string, zero, [None]) [add_item] returns
    at once: the store, the caller's log list and the rest of the world are
    as before, and so is [get_qty("")]. *)
Theorem add_item_falsy_noop (item qty : value) (logs : option loc) (w : world) :
  truthy item = false ->
  add_item item qty logs w = (Ret tt, w)
  /\ lists (after (add_item item qty logs) w) = lists w
  /\ outcome (get_qty item) (after (add_item item qty logs) w)
     = outcome (get_qty item) w.
Proof.
  intros Hf. assert (add_item item qty logs w = (Ret tt, w)) as Hrun.
  { unfold add_item. by rewrite Hf. }
  unfold after. by rewrite Hrun.
Qed.

(** What a call of [add_item] on a truthy key does when the addition raises. *)
Lemma add_item_raise_run item qty logs w e :
  truthy item = true ->
  py_add (default (PInt 0) (dict_get (stock_data w) item)) qty = Raise e ->
  add_item item qty logs w = (Raise e, w).
Proof.
  intros Ht Hadd. unfold add_item. rewrite Ht. simpl.
  unfold bind, read_global, lift. by rewrite Hadd.
Qed.

(** C10.  When the addition of [qty] to the prior quantity (0 for an absent
    key) raises, [add_item] raises that exception and has mutated nothing:
    the world it leaves, store and log lists included, is the one it got. *)
Theorem add_item_raise_leaves_world (item qty : value) (logs : option loc)
    (w : world) (e : exn) :
  truthy item = true ->
  py_add (default (PInt 0) (dict_get (stock_data w) item)) qty = Raise e ->
  add_item item qty logs w = (Raise e, w).
Proof. apply add_item_raise_run. Qed.




(** ** [remove_item] *)

(** What a call of [remove_item] does on a key that is absent. *)
Lemma remove_item_absent item qty w :
  dict_get (stock_data w) item = None ->
  remove_item item qty w = (Ret tt, w).
Proof.
  intros Habs. unfold remove_item, try_except, bind, read_global, getitem.
  simpl. by rewrite Habs.
Qed.

(** What it does on a key that is present, when the subtraction raises. *)
Lemma remove_item_raise item qty w old e :
  dict_get (stock_data w) item = Some old ->
  py_sub old qty = Raise e ->
  remove_item item qty w = (Raise e, w).
Proof.
  intros Hold Hsub. unfold remove_item, try_except, bind, read_global, getitem.
  simpl. rewrite Hold. unfold ret, lift. simpl. rewrite Hsub.
  destruct old, qty; simpl in Hsub; by simplify_eq.
Qed.

(** And when the subtraction is defined: the result is an integer; the entry
    is deleted when it is zero or negative and assigned otherwise. *)
Lemma remove_item_present item w n q :
  dict_get (stock_data w) item = Some (PInt n) ->
  remove_item item (PInt q) w =
    (Ret tt,
     with_stock_data
       (if n - q <=? 0
        then dict_del (dict_set (stock_data w) item (PInt (n - q))) item
        else dict_set (stock_data w) item (PInt (n - q))) w).
Proof.
  intros Hold. unfold remove_item, try_except, bind, read_global, getitem.
  simpl. rewrite Hold. unfold ret, lift, write_global. simpl.
  rewrite dict_get_set_eq. simpl. by destruct (n - q <=? 0).
Qed.

(** C5.  On a key that is not in the store [remove_item] returns without an
    exception and leaves the world, the store included, as it was: no entry
    is made for the key. *)
Theorem remove_item_absent_noop (item qty : value) (w : world) :
  dict_get (stock_data w) item = None ->
  remove_item item qty w = (Ret tt, w)
  /\ dict_get (stock_data (after (remove_item item qty) w)) item = None.
Proof.
  intros Habs. pose proof (remove_item_absent item qty w Habs) as Hrun.
  split; [done|]. unfold after. by rewrite Hrun.
Qed.

(** ** [check_low_items] *)

(** The loop returns its accumulator followed by the keys it selects, and
    leaves the world alone, when every quantity is an integer. *)
Lemma low_scan_int d (t : Z) acc w :
  int_valued d ->
  low_scan d (PInt t) acc w = (Ret (acc ++ low_keys t d), w).
Proof.
  unfold int_valued, low_keys. revert acc.
  induction d as [|[k v] d IH]; intros acc Hint; simpl.
  - by rewrite app_nil_r.
  - apply Forall_cons in Hint as [Hv Hd]. destruct v as [n| |]; try done.
    unfold bind, lift. simpl. unfold below at 1. simpl.
    rewrite IH by done. destruct (n <? t); simpl; [|done].
    by rewrite <- app_assoc.
Qed.

(** Whatever the quantities, a list the loop returns holds only keys of the
    dictionary, besides what the accumulator held. *)
Lemma low_scan_keys d t acc w l k :
  outcome (low_scan d t acc) w = Ret l ->
  k ∈ l -> k ∈ acc \/ k ∈ dict_keys d.
Proof.
  unfold outcome, dict_keys. revert acc.
  induction d as [|[k' v] d IH]; intros acc; simpl.
  - intros [= ->]. auto.
  - unfold bind, lift. simpl. destruct (py_lt v t) as [b|e]; simpl; [|done].
    intros Hrun Hk. destruct (IH _ Hrun Hk) as [Hacc|Hd].
    + destruct b; [|by left].
      apply elem_of_app in Hacc as [?|Hnew]; [by left|].
      apply list_elem_of_singleton in Hnew as ->.
      right. apply list_elem_of_here.
    + right. by apply list_elem_of_further.
Qed.

(** Whatever the quantities and the threshold, a list the loop returns is the
    accumulator followed by the keys whose quantity compares below the
    threshold, in order. *)
Lemma low_scan_returns d t acc w l :
  outcome (low_scan d t acc) w = Ret l ->
  l = acc ++ (List.filter (is_low t) d).*1.
Proof.
  unfold outcome. revert acc.
  induction d as [|[k v] d IH]; intros acc; simpl.
  - intros [= ->]. by rewrite app_nil_r.
  - unfold bind, lift, is_low at 1. simpl.
    destruct (py_lt v t) as [[|]|e]; simpl; [| |done].
    + intros Hrun. rewrite (IH _ Hrun). by rewrite <- app_assoc.
    + apply IH.
Qed.

Lemma check_low_items_returns threshold w l :
  outcome (check_low_items threshold) w = Ret l ->
  l = (List.filter (is_low (default default_threshold threshold)) (stock_data w)).*1.
Proof. apply (low_scan_returns (stock_data w) _ [] w l). Qed.

Lemma check_low_items_keys threshold w l k :
  outcome (check_low_items threshold) w = Ret l ->
  k ∈ l -> k ∈ dict_keys (stock_data w).
Proof.
  intros Hrun Hk.
  destruct (low_scan_keys (stock_data w) (default default_threshold threshold)
              [] w l k Hrun Hk) as [Hnil|Hd]; [|done].
  by apply elem_of_nil in Hnil.
Qed.

Lemma elem_of_low_keys t d k :
  k ∈ low_keys t d <-> exists n, (k, PInt n) ∈ d /\ n < t.
Proof.
  unfold low_keys. rewrite list_elem_of_fmap. split.
  - intros [[k' v] [-> Hin]]. apply list_elem_of_In, filter_In in Hin.
    destruct Hin as [Hin Hlow]. unfold below in Hlow. simpl in *.
    destruct v as [n| |]; try done. exists n. split.
    + by apply list_elem_of_In.
    + by apply Z.ltb_lt.
  - intros (n & Hin & Hlt). exists (k, PInt n). split; [done|].
    apply list_elem_of_In, filter_In. split; [by apply list_elem_of_In|].
    unfold below. simpl. by apply Z.ltb_lt.
Qed.

(** C8.  On a store of integer quantities [check_low_items(t)] returns, in
    the store's order, exactly the keys whose quantity is strictly less than
    [t], and changes nothing; left out, the threshold is 5; on
    [{a: 10, b: 3, c: 5}] with threshold 5 the answer is [[b]]. *)
Theorem check_low_items_below (t : Z) (w : world) :
  int_valued (stock_data w) ->
  check_low_items (Some (PInt t)) w = (Ret (low_keys t (stock_data w)), w)
  /\ (forall k, k ∈ low_keys t (stock_data w)
                <-> exists n, (k, PInt n) ∈ stock_data w /\ n < t)
  /\ low_keys t (stock_data w) `sublist_of` dict_keys (stock_data w)
  /\ check_low_items None w = check_low_items (Some (PInt 5)) w
  /\ (forall w0,
        stock_data w0
          = [(PStr "a", PInt 10); (PStr "b", PInt 3); (PStr "c", PInt 5)] ->
        outcome (check_low_items (Some (PInt 5))) w0 = Ret [PStr "b"]).
Proof.
  intros Hint. repeat split.
  - unfold check_low_items, bind, read_global. simpl.
    by rewrite low_scan_int.
  - by apply elem_of_low_keys.
  - by apply elem_of_low_keys.
  - unfold low_keys, dict_keys. apply fmap_sublist. clear Hint.
    induction (stock_data w) as [|kv d IH]; simpl; [done|].
    destruct (below t kv); by constructor.
  - intros w0 Hw0. unfold outcome, check_low_items, bind, read_global. simpl.
    by rewrite Hw0.
Qed.

(** ** [remove_item], continued *)

Lemma int_valued_set d k n : int_valued d -> int_valued (dict_set d k (PInt n)).
Proof.
  unfold int_valued. induction d as [|[k' v'] d IH]; simpl.
  - intros _. by repeat constructor.
  - intros [Hv Hd]%Forall_cons. case_decide; apply Forall_cons; auto.
Qed.

Lemma int_valued_del d k : int_valued d -> int_valued (dict_del d k).
Proof.
  unfold int_valued. induction d as [|[k' v'] d IH]; simpl; [done|].
  intros [Hv Hd]%Forall_cons. case_decide; [done|]. apply Forall_cons; auto.
Qed.

(** [remove_item] touches no entry but that of its key, whatever it is given
    and however it ends. *)
Lemma remove_item_others item qty w k :
  k <> item ->
  dict_get (stock_data (after (remove_item item qty) w)) k
  = dict_get (stock_data w) k.
Proof.
  intros Hne. unfold after.
  destruct (dict_get (stock_data w) item) as [old|] eqn:Hold.
  - destruct (py_sub old qty) as [new|e] eqn:Hsub.
    + destruct old as [n| |], qty as [q| |]; try done.
      rewrite (remove_item_present item w n q Hold). simpl.
      destruct (n - q <=? 0).
      * rewrite dict_get_del_ne by done. by apply dict_get_set_ne.
      * by apply dict_get_set_ne.
    + by rewrite (remove_item_raise item qty w old e Hold Hsub).
  - by rewrite (remove_item_absent item qty w Hold).
Qed.

(** The claim as the specification words it fails after the two calls that
    open [main], [add_item("apple", 10)] and [add_item("banana", -2)]: the
    call [remove_item("apple", 3)] completes and [banana] is still there with
    quantity -2. *)
Lemma remove_item_leaves_nonpositive_entry :
  outcome (remove_item (PStr "apple") (PInt 3)) apple_banana_world = Ret tt
  /\ dict_get
       (stock_data (after (remove_item (PStr "apple") (PInt 3)) apple_banana_world))
       (PStr "banana") = Some (PInt (-2))
  /\ ~ (forall k n,
          dict_get
            (stock_data (after (remove_item (PStr "apple") (PInt 3)) apple_banana_world))
            k = Some (PInt n) ->
          0 < n).
Proof.
  repeat split. intros Hall.
  specialize (Hall (PStr "banana") (-2) eq_refl). lia.
Qed.

(** C3, amended.  Removing at least the whole integer quantity of a key that
    is present deletes its entry: the call returns, [get_qty] gives 0, and
    the key is neither among the store's keys nor in any answer of
    [check_low_items].  After any call of [remove_item] that completes, the
    entry of the key it was called on is not left with a quantity that is
    zero or negative.  The entries of the other keys are as they were. *)
Theorem remove_item_deletes_nonpositive (i : value) (w : world) :
  dict_wf (stock_data w) ->
  (forall n q : Z,
     dict_get (stock_data w) i = Some (PInt n) -> n <= q ->
     let w' := after (remove_item i (PInt q)) w in
     outcome (remove_item i (PInt q)) w = Ret tt
     /\ outcome (get_qty i) w' = Ret (PInt 0)
     /\ (i ∉ dict_keys (stock_data w'))
     /\ (forall t l, outcome (check_low_items t) w' = Ret l -> i ∉ l)
     /\ (int_valued (stock_data w) ->
         forall t : Z, exists l,
           outcome (check_low_items (Some (PInt t))) w' = Ret l /\ i ∉ l))
  /\ (forall q v,
        outcome (remove_item i q) w = Ret tt ->
        dict_get (stock_data (after (remove_item i q) w)) i = Some v ->
        exists n, v = PInt n /\ 0 < n)
  /\ (forall q k,
        k <> i ->
        dict_get (stock_data (after (remove_item i q) w)) k
        = dict_get (stock_data w) k).
Proof.
  intros Hwf. split; [|split].
  - intros n q Hold Hle w'.
    assert (remove_item i (PInt q) w
            = (Ret tt, with_stock_data
                 (dict_del (dict_set (stock_data w) i (PInt (n - q))) i) w))
      as Hrun.
    { rewrite (remove_item_present i w n q Hold).
      by replace (n - q <=? 0) with true by (symmetry; apply Z.leb_le; lia). }
    assert (i ∉ dict_keys (stock_data w')) as Hgone.
    { unfold w', after. rewrite Hrun. simpl.
      by apply dict_del_absent, dict_wf_set. }
    assert (forall t l, outcome (check_low_items t) w' = Ret l -> i ∉ l)
      as Hlow.
    { intros t l Hl Hin. apply Hgone. by eapply check_low_items_keys. }
    repeat split.
    + unfold outcome. by rewrite Hrun.
    + unfold outcome. rewrite get_qty_run. simpl.
      apply dict_get_None in Hgone. by rewrite Hgone.
    + done.
    + done.
    + intros Hint t. exists (low_keys t (stock_data w')).
      assert (outcome (check_low_items (Some (PInt t))) w'
              = Ret (low_keys t (stock_data w'))) as Hl.
      { unfold outcome, check_low_items, bind, read_global. simpl.
        rewrite low_scan_int; [done|].
        unfold w', after. rewrite Hrun. simpl.
        by apply int_valued_del, int_valued_set. }
      split; [done|]. by apply (Hlow _ _ Hl).
  - intros q v. unfold outcome, after.
    destruct (dict_get (stock_data w) i) as [old|] eqn:Hold.
    + destruct (py_sub old q) as [new|e] eqn:Hsub.
      * destruct old as [n| |], q as [m| |]; try done.
        rewrite (remove_item_present i w n m Hold). simpl. intros _.
        destruct (n - m <=? 0) eqn:Hsign.
        -- intros Hget. exfalso.
           apply dict_get_Some_elem in Hget.
           apply (dict_del_absent (dict_set (stock_data w) i (PInt (n - m))) i).
           { by apply dict_wf_set. }
           unfold dict_keys. apply list_elem_of_fmap. by exists (i, v).
        -- rewrite dict_get_set_eq. intros [= <-]. exists (n - m).
           split; [done|]. apply Z.leb_gt in Hsign. lia.
      * by rewrite (remove_item_raise i q w old e Hold Hsub).
    + rewrite (remove_item_absent i q w Hold). simpl. by rewrite Hold.
  - intros q k Hne. by apply remove_item_others.
Qed.

(** ** [load_data] and [save_data] *)

(** C9.  When no file is at the path, [load_data] returns without an
    exception and leaves an empty store, the rest of the world untouched;
    afterwards [get_qty] gives 0 for every key. *)
Theorem load_data_missing_file (path : option string) (w : world) :
  files w !! default default_file path = None ->
  load_data path w = (Ret tt, with_stock_data [] w)
  /\ stock_data (after (load_data path) w) = []
  /\ (forall x, outcome (get_qty x) (after (load_data path) w) = Ret (PInt 0)).
Proof.
  intros Hmiss.
  assert (load_data path w = (Ret tt, with_stock_data [] w)) as Hrun.
  { unfold load_data, try_except, bind, read_file. by rewrite Hmiss. }
  unfold outcome, after. by rewrite Hrun.
Qed.

(** The claim as the specification words it fails: with one item in the
    store and an [inventory.json] the decoder rejects, [load_data] returns
    and the store still holds the item. *)
Lemma load_data_undecodable_not_reset :
  (exists msg, files garbled_file_world !! default_file = Some (Undecodable msg))
  /\ outcome (load_data None) garbled_file_world = Ret tt
  /\ stock_data (after (load_data None) garbled_file_world)
     = [(PStr "apple", PInt 10)]
  /\ stock_data (after (load_data None) garbled_file_world) <> [].
Proof.
  split; [by eexists|]. by repeat split.
Qed.

(** C1, amended.  When the file at the path holds a text the JSON decoder
    rejects, [load_data] returns without an exception, prints one diagnostic
    line naming the file and the decoder's message, and leaves the store at
    its prior value. *)
Theorem load_data_undecodable_keeps_store (path : option string) (msg : string)
    (w : world) :
  files w !! default default_file path = Some (Undecodable msg) ->
  load_data path w
  = (Ret tt,
     with_stdout
       (stdout w ++ ["Error decoding JSON data in " +:+ default default_file path
                     +:+ ": " +:+ msg]) w)
  /\ stock_data (after (load_data path) w) = stock_data w.
Proof.
  intros Hfile.
  assert (load_data path w
          = (Ret tt,
             with_stdout
               (stdout w ++ ["Error decoding JSON data in "
                             +:+ default default_file path +:+ ": " +:+ msg]) w))
    as Hrun.
  { unfold load_data, try_except, bind, read_file. by rewrite Hfile. }
  unfold after. by rewrite Hrun.
Qed.

(** *** The round trip *)







(** ** The representation invariant

    The store starts without repeated keys and every function of the module
    keeps it so, however the call ends. *)

Lemma dict_wf_of_members ms : dict_wf (dict_of_members ms).
Proof.
  unfold dict_of_members.
  assert (dict_wf []) as Hnil by apply NoDup_nil_2.
  revert Hnil. generalize ([] : dict).
  induction ms as [|[s v] ms IH]; intros acc Hacc; simpl; [done|].
  by apply IH, dict_wf_set.
Qed.

Lemma add_item_wf item qty logs w :
  dict_wf (stock_data w) ->
  dict_wf (stock_data (after (add_item item qty logs) w)).
Proof.
  intros Hwf. destruct (truthy item) eqn:Ht.
  - destruct (py_add (default (PInt 0) (dict_get (stock_data w) item)) qty)
      as [v|e] eqn:Hadd.
    + destruct (add_item_store item qty logs w v Ht Hadd) as [_ ->].
      by apply dict_wf_set.
    + unfold after.
      by rewrite (add_item_raise_run item qty logs w e Ht Hadd).
  - unfold after, add_item. by rewrite Ht.
Qed.

Lemma remove_item_wf item qty w :
  dict_wf (stock_data w) ->
  dict_wf (stock_data (after (remove_item item qty) w)).
Proof.
  intros Hwf. unfold after.
  destruct (dict_get (stock_data w) item) as [old|] eqn:Hold.
  - destruct (py_sub old qty) as [new|e] eqn:Hsub.
    + destruct old as [n| |], qty as [q| |]; try done.
      rewrite (remove_item_present item w n q Hold). simpl.
      destruct (n - q <=? 0); [apply dict_wf_del|]; by apply dict_wf_set.
    + by rewrite (remove_item_raise item qty w old e Hold Hsub).
  - by rewrite (remove_item_absent item qty w Hold).
Qed.

Lemma load_data_wf path w :
  dict_wf (stock_data w) ->
  dict_wf (stock_data (after (load_data path) w)).
Proof.
  intros Hwf. unfold after, load_data, try_except, bind, read_file.
  destruct (files w !! default default_file path) as [[ms|msg]|]; simpl.
  - apply dict_wf_of_members.
  - done.
  - apply NoDup_nil_2.
Qed.

Lemma save_data_store path w :
  stock_data (after (save_data path) w) = stock_data w.
Proof. reflexivity. Qed.

(** ** The theorems at work on the sample worlds *)

(** [add_item("", 3, logs)] on a world whose caller owns the list [logs]. *)
Lemma add_item_falsy_noop_witness :
  truthy (PStr EmptyString) = false
  /\ add_item (PStr EmptyString) (PInt 3) (Some 0%nat) logged_world
     = (Ret tt, logged_world).
Proof.
  split; [reflexivity|].
  apply (add_item_falsy_noop (PStr EmptyString) (PInt 3) (Some 0%nat)
           logged_world).
  reflexivity.
Defined.

(** [add_item(123, "ten", logs)], the call of [main] that raises. *)
Lemma add_item_raise_leaves_world_witness :
  truthy (PInt 123) = true
  /\ py_add (default (PInt 0) (dict_get (stock_data logged_world) (PInt 123)))
       (PStr "ten") = Raise TypeError
  /\ add_item (PInt 123) (PStr "ten") (Some 0%nat) logged_world
     = (Raise TypeError, logged_world).
Proof.
  split; [reflexivity|]. split; [reflexivity|].
  apply (add_item_raise_leaves_world (PInt 123) (PStr "ten") (Some 0%nat)
           logged_world TypeError); reflexivity.
Defined.



(** [remove_item("orange", 1)], the call of [main] on an absent key. *)
Lemma remove_item_absent_noop_witness :
  dict_get (stock_data apple_banana_world) (PStr "orange") = None
  /\ remove_item (PStr "orange") (PInt 1) apple_banana_world
     = (Ret tt, apple_banana_world).
Proof.
  split; [reflexivity|].
  apply (remove_item_absent_noop (PStr "orange") (PInt 1) apple_banana_world).
  reflexivity.
Defined.

Lemma int_valued_abc : int_valued (stock_data abc_world).
Proof. repeat constructor. Defined.

Lemma dict_wf_apple_banana : dict_wf (stock_data apple_banana_world).
Proof.
  unfold dict_wf. apply (bool_decide_unpack _). vm_compute. exact I.
Defined.

(** [check_low_items(5)] on [{a: 10, b: 3, c: 5}]. *)
Lemma check_low_items_below_witness :
  int_valued (stock_data abc_world)
  /\ check_low_items (Some (PInt 5)) abc_world
     = (Ret (low_keys 5 (stock_data abc_world)), abc_world).
Proof.
  split; [exact int_valued_abc|].
  apply (check_low_items_below 5 abc_world int_valued_abc).
Defined.

(** [remove_item("apple", 12)] on a store holding ten apples. *)
Lemma remove_item_deletes_nonpositive_witness :
  dict_wf (stock_data apple_banana_world)
  /\ dict_get (stock_data apple_banana_world) (PStr "apple") = Some (PInt 10)
  /\ 10 <= 12
  /\ outcome (get_qty (PStr "apple"))
       (after (remove_item (PStr "apple") (PInt 12)) apple_banana_world)
     = Ret (PInt 0).
Proof.
  split; [exact dict_wf_apple_banana|]. split; [reflexivity|].
  split; [discriminate|].
  apply (proj1 (remove_item_deletes_nonpositive (PStr "apple")
                  apple_banana_world dict_wf_apple_banana) 10 12).
  - reflexivity.
  - discriminate.
Defined.

(** [load_data()] with no [inventory.json]. *)
Lemma load_data_missing_file_witness :
  files apple_banana_world !! default default_file None = None
  /\ stock_data (after (load_data None) apple_banana_world) = [].
Proof.
  split; [reflexivity|].
  apply (load_data_missing_file None apple_banana_world). reflexivity.
Defined.

(** [load_data()] with an [inventory.json] that is not JSON. *)
Lemma load_data_undecodable_keeps_store_witness :
  files garbled_file_world !! default default_file None
  = Some (Undecodable "Expecting value: line 1 column 1 (char 0)")
  /\ stock_data (after (load_data None) garbled_file_world)
     = stock_data garbled_file_world.
Proof.
  split; [reflexivity|].
  apply (load_data_undecodable_keeps_store None
           "Expecting value: line 1 column 1 (char 0)" garbled_file_world).
  reflexivity.
Defined.


(** * Further properties of the module *)

(** ** More on dictionaries *)

Lemma dict_keys_set_present (d : dict) (k v : value) :
  k ∈ dict_keys d -> dict_keys (dict_set d k v) = dict_keys d.
Proof.
  unfold dict_keys. induction d as [|[k' v'] d IH]; simpl.
  - intros H'. by apply elem_of_nil in H'.
  - case_decide; subst; simpl; [done|].
    intros [?|Hin]%elem_of_cons; [congruence|]. f_equal. by apply IH.
Qed.

Lemma dict_keys_set_fresh (d : dict) (k v : value) :
  k ∉ dict_keys d -> dict_keys (dict_set d k v) = dict_keys d ++ [k].
Proof.
  intros Hk. rewrite dict_set_fresh by done.
  unfold dict_keys. by rewrite fmap_app.
Qed.


Lemma dict_keys_del_sublist (d : dict) (k : value) :
  dict_keys (dict_del d k) `sublist_of` dict_keys d.
Proof.
  unfold dict_keys. induction d as [|[k' v'] d IH]; simpl; [done|].
  case_decide; simpl; [by apply sublist_cons | by apply sublist_skip].
Qed.

Lemma int_valued_get (d : dict) (k : value) :
  int_valued d -> exists n, default (PInt 0) (dict_get d k) = PInt n.
Proof.
  unfold int_valued. induction d as [|[k' v'] d IH]; simpl.
  - intros _. by exists 0.
  - intros [Hv Hd]%Forall_cons. case_decide; [|auto].
    destruct v' as [n| |]; try done. by exists n.
Qed.

(** ** More on [add_item] *)


(** [add_item] leaves every entry but that of its key as it was, however the
    call ends. *)
Lemma add_item_others_get item qty logs w k :
  k <> item ->
  dict_get (stock_data (after (add_item item qty logs) w)) k
  = dict_get (stock_data w) k.
Proof.
  intros Hne. destruct (truthy item) eqn:Ht.
  - destruct (py_add (default (PInt 0) (dict_get (stock_data w) item)) qty)
      as [v|e] eqn:Hadd.
    + destruct (add_item_store item qty logs w v Ht Hadd) as [_ ->].
      by apply dict_get_set_ne.
    + unfold after.
      by rewrite (add_item_raise_run item qty logs w e Ht Hadd).
  - unfold after, add_item. by rewrite Ht.
Qed.

(** X2.  [add_item] changes the quantity of no other key: whatever its
    arguments and whether it returns or raises, [get_qty(k)] is the same
    before and after for every key [k] other than the item. *)
Theorem add_item_frame (item qty k : value) (logs : option loc) (w : world) :
  k <> item ->
  outcome (get_qty k) (after (add_item item qty logs) w)
  = outcome (get_qty k) w.
Proof.
  intros Hne. unfold outcome. rewrite !get_qty_run. simpl.
  by rewrite add_item_others_get.
Qed.

(** X3.  Insertion order under [add_item]: crediting a key that is present
    leaves the order of the keys as it was; crediting an absent key puts it
    last. *)
Theorem add_item_order (item qty v : value) (logs : option loc) (w : world) :
  truthy item = true ->
  py_add (default (PInt 0) (dict_get (stock_data w) item)) qty = Ret v ->
  let w' := after (add_item item qty logs) w in
  (item ∈ dict_keys (stock_data w) ->
   dict_keys (stock_data w') = dict_keys (stock_data w))
  /\ (item ∉ dict_keys (stock_data w) ->
      dict_keys (stock_data w') = dict_keys (stock_data w) ++ [item]).
Proof.
  intros Ht Hadd w'.
  destruct (add_item_store item qty logs w v Ht Hadd) as [_ Hst].
  fold w' in Hst. rewrite Hst. split.
  - apply dict_keys_set_present.
  - apply dict_keys_set_fresh.
Qed.




(** ** More on [remove_item] *)

Lemma dict_del_set (d : dict) (k v : value) :
  dict_del (dict_set d k v) k = dict_del d k.
Proof.
  induction d as [|[k' v'] d IH]; simpl.
  - by rewrite decide_True.
  - case_decide; subst; simpl; [by rewrite decide_True|].
    rewrite decide_False by done. f_equal. by apply IH.
Qed.



(** Every way [remove_item] can end leaves a world that differs from the one
    it got in the store at most. *)
Lemma remove_item_world item qty w :
  exists d, after (remove_item item qty) w = with_stock_data d w
            /\ dict_keys d `sublist_of` dict_keys (stock_data w).
Proof.
  unfold after.
  destruct (dict_get (stock_data w) item) as [old|] eqn:Hold.
  - assert (item ∈ dict_keys (stock_data w)) as Hin.
    { destruct (decide (item ∈ dict_keys (stock_data w))) as [|Hn]; [done|].
      apply dict_get_None in Hn. congruence. }
    destruct (py_sub old qty) as [new|e] eqn:Hsub.
    + destruct old as [n| |], qty as [q| |]; try done.
      rewrite (remove_item_present item w n q Hold). simpl.
      eexists. split; [done|]. destruct (n - q <=? 0).
      * rewrite dict_del_set. apply dict_keys_del_sublist.
      * by rewrite dict_keys_set_present.
    + rewrite (remove_item_raise item qty w old e Hold Hsub). simpl.
      exists (stock_data w). by destruct w.
  - rewrite (remove_item_absent item qty w Hold). simpl.
    exists (stock_data w). by destruct w.
Qed.

(** X5.  Removing less than the stock of a key leaves its entry in place with
    the difference: the call returns, [get_qty] gives [n - q] and the order
    of the keys is as before.  (A negative [q] raises the stock.) *)
Theorem remove_item_partial (item : value) (n q : Z) (w : world) :
  dict_get (stock_data w) item = Some (PInt n) ->
  q < n ->
  let w' := after (remove_item item (PInt q)) w in
  outcome (remove_item item (PInt q)) w = Ret tt
  /\ outcome (get_qty item) w' = Ret (PInt (n - q))
  /\ dict_keys (stock_data w') = dict_keys (stock_data w).
Proof.
  intros Hold Hlt w'.
  assert (remove_item item (PInt q) w
          = (Ret tt, with_stock_data (dict_set (stock_data w) item (PInt (n - q))) w))
    as Hrun.
  { rewrite (remove_item_present item w n q Hold).
    by replace (n - q <=? 0) with false by (symmetry; apply Z.leb_gt; lia). }
  unfold w', outcome, after. rewrite Hrun, get_qty_run. simpl.
  rewrite dict_get_set_eq. repeat split.
  apply dict_keys_set_present.
  destruct (decide (item ∈ dict_keys (stock_data w))) as [|Hn]; [done|].
  apply dict_get_None in Hn. congruence.
Qed.


(** X7.  [remove_item] never logs, prints, reads the clock or touches a
    file, and never makes an entry: whatever its arguments and however it
    ends, only the store can differ afterwards, and its keys are the former
    keys, in their order, less at most some. *)
Theorem remove_item_frame (item qty : value) (w : world) :
  let w' := after (remove_item item qty) w in
  lists w' = lists w
  /\ files w' = files w
  /\ stdout w' = stdout w
  /\ ticks w' = ticks w
  /\ dict_keys (stock_data w') `sublist_of` dict_keys (stock_data w).
Proof.
  intros w'. destruct (remove_item_world item qty w) as (d & Hw & Hsub).
  fold w' in Hw. by rewrite Hw.
Qed.

Lemma all_positive_del d k : all_positive d -> all_positive (dict_del d k).
Proof.
  unfold all_positive. induction d as [|[k' v'] d IH]; simpl; [done|].
  intros [Hv Hd]%Forall_cons. case_decide; [done|]. apply Forall_cons; auto.
Qed.

Lemma all_positive_set d k n :
  0 < n -> all_positive d -> all_positive (dict_set d k (PInt n)).
Proof.
  intros Hn. unfold all_positive. induction d as [|[k' v'] d IH]; simpl.
  - intros _. apply Forall_cons. split; [|done]. simpl. by apply Z.ltb_lt.
  - intros [Hv Hd]%Forall_cons. case_decide; apply Forall_cons; auto.
    split; [|done]. simpl. by apply Z.ltb_lt.
Qed.

(** X8.  Positive stock is an invariant of [remove_item]: from a store whose
    quantities are all integers above zero, no call of [remove_item],
    whatever its arguments and however it ends, leaves an entry at zero or
    below. *)
Theorem remove_item_keeps_positive (item qty : value) (w : world) :
  all_positive (stock_data w) ->
  all_positive (stock_data (after (remove_item item qty) w)).
Proof.
  intros Hpos. unfold after.
  destruct (dict_get (stock_data w) item) as [old|] eqn:Hold.
  - destruct (py_sub old qty) as [new|e] eqn:Hsub.
    + destruct old as [n| |], qty as [q| |]; try done.
      rewrite (remove_item_present item w n q Hold). simpl.
      destruct (n - q <=? 0) eqn:Hsign.
      * rewrite dict_del_set. by apply all_positive_del.
      * apply all_positive_set; [|done]. apply Z.leb_gt in Hsign. lia.
    + by rewrite (remove_item_raise item qty w old e Hold Hsub).
  - by rewrite (remove_item_absent item qty w Hold).
Qed.



(** ** More on [load_data] and [save_data] *)









(** ** More on [check_low_items] and [print_data] *)

Lemma low_scan_world d t acc w : (low_scan d t acc w).2 = w.
Proof.
  revert acc. induction d as [|[k v] d IH]; intros acc; simpl; [done|].
  unfold bind, lift. simpl. destruct (py_lt v t) as [b|e]; simpl; [|done].
  apply IH.
Qed.

Lemma py_lt_raise a b e : py_lt a b = Raise e -> e = TypeError.
Proof. destruct a, b; simpl; congruence. Qed.

Lemma low_scan_raise d t acc w :
  (exists e, outcome (low_scan d t acc) w = Raise e)
  <-> Exists (fun kv => py_lt kv.2 t = Raise TypeError) d.
Proof.
  unfold outcome. revert acc.
  induction d as [|[k v] d IH]; intros acc; simpl.
  - split; [by intros [e ?]|]. intros H'. by apply Exists_nil in H'.
  - rewrite Exists_cons. simpl. unfold bind, lift. simpl.
    destruct (py_lt v t) as [b|e] eqn:Hlt; simpl.
    + rewrite IH. split; [by right|]. by intros [?|?].
    + apply py_lt_raise in Hlt as ->. split; [by left|]. intros _. by eexists.
Qed.

Lemma low_scan_raise_type d t acc w e :
  outcome (low_scan d t acc) w = Raise e -> e = TypeError.
Proof.
  unfold outcome. revert acc.
  induction d as [|[k v] d IH]; intros acc; simpl; [done|].
  unfold bind, lift. simpl. destruct (py_lt v t) as [b|e'] eqn:Hlt; simpl.
  - apply IH.
  - intros [= <-]. by apply py_lt_raise in Hlt.
Qed.

(** X13.  [check_low_items] is a pure query: for every store and threshold,
    whether it returns or raises, the world afterwards is the world before. *)
Theorem check_low_items_pure (threshold : option value) (w : world) :
  after (check_low_items threshold) w = w.
Proof.
  unfold after, check_low_items, bind, read_global. simpl.
  apply low_scan_world.
Qed.

(** X14.  [check_low_items] raises exactly when some quantity cannot be
    compared with the threshold (a string or [None] quantity against an
    integer threshold, say), and then the exception is [TypeError]: no
    partial list is returned. *)
Theorem check_low_items_type_error (threshold : option value) (w : world) :
  let t := default default_threshold threshold in
  (Exists (fun kv => py_lt kv.2 t = Raise TypeError) (stock_data w)
   <-> outcome (check_low_items threshold) w = Raise TypeError)
  /\ (Forall (fun kv => py_lt kv.2 t <> Raise TypeError) (stock_data w)
      <-> exists l, outcome (check_low_items threshold) w = Ret l).
Proof.
  intros t.
  assert (outcome (check_low_items threshold) w
          = outcome (low_scan (stock_data w) t []) w) as Hrun by reflexivity.
  rewrite Hrun.
  pose proof (low_scan_raise (stock_data w) t [] w) as Hraise.
  split.
  - rewrite <- Hraise. split.
    + intros [e He]. by rewrite He, (low_scan_raise_type _ _ _ _ _ He).
    + intros He. by eexists.
  - rewrite Forall_Exists_neg.
    + rewrite <- Hraise. split.
      * intros Hno.
        destruct (outcome (low_scan (stock_data w) t []) w) as [l|e] eqn:Ho.
        -- by exists l.
        -- exfalso. apply Hno. by exists e.
      * intros [l Hl] [e He]. congruence.
Qed.

(** On integer quantities and an integer threshold the query returns the
    keys below the threshold. *)
Lemma check_low_items_int_run (t : Z) (w : world) :
  int_valued (stock_data w) ->
  check_low_items (Some (PInt t)) w = (Ret (low_keys t (stock_data w)), w).
Proof.
  intros Hint. unfold check_low_items, bind, read_global. simpl.
  by rewrite low_scan_int.
Qed.

Lemma below_mono (t1 t2 : Z) (kv : value * value) :
  t1 <= t2 -> below t1 kv = true -> below t2 kv = true.
Proof.
  intros Hle. unfold below. destruct kv.2 as [n| |]; try done.
  rewrite !Z.ltb_lt. lia.
Qed.

Lemma low_keys_mono (t1 t2 : Z) (d : dict) :
  t1 <= t2 -> low_keys t1 d `sublist_of` low_keys t2 d.
Proof.
  intros Hle. unfold low_keys. apply fmap_sublist.
  induction d as [|kv d IH]; simpl; [done|].
  destruct (below t1 kv) eqn:H1.
  - rewrite (below_mono t1 t2 kv Hle H1). by apply sublist_skip.
  - destruct (below t2 kv); [by apply sublist_cons | done].
Qed.

(** X15.  Raising the threshold only adds keys: on a store of integer
    quantities the answer for a threshold is, in order, part of the answer
    for any larger one. *)
Theorem check_low_items_monotone (t1 t2 : Z) (w : world) :
  int_valued (stock_data w) ->
  t1 <= t2 ->
  exists l1 l2,
    outcome (check_low_items (Some (PInt t1))) w = Ret l1
    /\ outcome (check_low_items (Some (PInt t2))) w = Ret l2
    /\ l1 `sublist_of` l2.
Proof.
  intros Hint Hle.
  exists (low_keys t1 (stock_data w)), (low_keys t2 (stock_data w)).
  unfold outcome. rewrite !check_low_items_int_run by done.
  repeat split. by apply low_keys_mono.
Qed.

Lemma dict_wf_elem_iff (d : dict) (k v : value) :
  dict_wf d -> (k, v) ∈ d <-> dict_get d k = Some v.
Proof.
  intros Hwf. split; [by apply dict_elem_get | apply dict_get_Some_elem].
Qed.

(** X16.  After a credit, the item is reported low exactly when its new
    quantity is below the threshold, and the report of every other key is as
    it was before the credit. *)
Theorem add_item_then_check_low (i : value) (n q t : Z) (logs : option loc)
    (w : world) :
  dict_wf (stock_data w) ->
  int_valued (stock_data w) ->
  truthy i = true ->
  default (PInt 0) (dict_get (stock_data w) i) = PInt n ->
  exists l l',
    outcome (check_low_items (Some (PInt t))) w = Ret l
    /\ outcome (check_low_items (Some (PInt t)))
         (after (add_item i (PInt q) logs) w) = Ret l'
    /\ (i ∈ l' <-> n + q < t)
    /\ (forall k, k <> i -> k ∈ l' <-> k ∈ l).
Proof.
  intros Hwf Hint Ht Hprior.
  destruct (add_item_store i (PInt q) logs w (PInt (n + q)) Ht) as [_ Hst].
  { by rewrite Hprior. }
  set (w' := after (add_item i (PInt q) logs) w) in *.
  assert (int_valued (stock_data w')) as Hint'.
  { rewrite Hst. by apply int_valued_set. }
  assert (dict_wf (stock_data w')) as Hwf'.
  { rewrite Hst. by apply dict_wf_set. }
  exists (low_keys t (stock_data w)), (low_keys t (stock_data w')).
  unfold outcome. rewrite !check_low_items_int_run by done.
  split; [done|]. split; [done|]. split.
  - rewrite elem_of_low_keys. split.
    + intros (m & Hin & Hm). apply dict_wf_elem_iff in Hin; [|done].
      rewrite Hst, dict_get_set_eq in Hin. by injection Hin as <-.
    + intros Hlt. exists (n + q). split; [|done].
      apply dict_wf_elem_iff; [done|]. by rewrite Hst, dict_get_set_eq.
  - intros k Hne. rewrite !elem_of_low_keys.
    split; intros (m & Hin & Hm); exists m; (split; [|done]).
    + apply dict_wf_elem_iff in Hin; [|done]. apply dict_wf_elem_iff; [done|].
      by rewrite Hst, dict_get_set_ne in Hin.
    + apply dict_wf_elem_iff in Hin; [|done]. apply dict_wf_elem_iff; [done|].
      by rewrite Hst, dict_get_set_ne.
Qed.



(** ** [main] *)

Lemma bind_ret_run {A B} (m : M A) (k : A -> M B) w a w1 :
  m w = (Ret a, w1) -> bind m k w = k a w1.
Proof. intros Hm. unfold bind. by rewrite Hm. Qed.

Lemma bind_raise_run {A B} (m : M A) (k : A -> M B) w e w1 :
  m w = (Raise e, w1) -> bind m k w = (Raise e, w1).
Proof. intros Hm. unfold bind. by rewrite Hm. Qed.

(** X18.  On a store of integer quantities (the empty store of a fresh
    process among them) [main] raises [TypeError] at its third call,
    [add_item(123, "ten")], whatever [str] gives for lists: the calls after
    it are never reached, so that nothing is printed and no file is written,
    and the store is left with [apple] credited by 10 and [banana] by -2. *)
Theorem main_raises_type_error (list_str : list value -> string) (w : world) :
  int_valued (stock_data w) ->
  let w' := after (main list_str) w in
  outcome (main list_str) w = Raise TypeError
  /\ stdout w' = stdout w
  /\ files w' = files w
  /\ lists w' = lists w
  /\ (exists a b,
        default (PInt 0) (dict_get (stock_data w) (PStr "apple")) = PInt a
        /\ default (PInt 0)
             (dict_get (dict_set (stock_data w) (PStr "apple") (PInt (a + 10)))
                (PStr "banana")) = PInt b
        /\ stock_data w'
           = dict_set (dict_set (stock_data w) (PStr "apple") (PInt (a + 10)))
               (PStr "banana") (PInt (b + -2)))
  /\ (stock_data w = [] ->
      stock_data w' = [(PStr "apple", PInt 10); (PStr "banana", PInt (-2))]).
Proof.
  intros Hint w'.
  destruct (int_valued_get (stock_data w) (PStr "apple") Hint) as [a Ha].
  set (w1 := with_ticks (S (ticks w))
               (with_stock_data
                  (dict_set (stock_data w) (PStr "apple") (PInt (a + 10))) w)).
  assert (add_item (PStr "apple") (PInt 10) None w = (Ret tt, w1)) as H1.
  { rewrite (add_item_run (PStr "apple") (PInt 10) None w (PInt (a + 10)));
      [done|done|by rewrite Ha]. }
  assert (int_valued (stock_data w1)) as Hint1 by by apply int_valued_set.
  destruct (int_valued_get (stock_data w1) (PStr "banana") Hint1) as [b Hb].
  set (w2 := with_ticks (S (ticks w1))
               (with_stock_data
                  (dict_set (stock_data w1) (PStr "banana") (PInt (b + -2))) w1)).
  assert (add_item (PStr "banana") (PInt (-2)) None w1 = (Ret tt, w2)) as H2.
  { rewrite (add_item_run (PStr "banana") (PInt (-2)) None w1 (PInt (b + -2)));
      [done|done|by rewrite Hb]. }
  assert (int_valued (stock_data w2)) as Hint2 by by apply int_valued_set.
  destruct (int_valued_get (stock_data w2) (PInt 123) Hint2) as [c Hc].
  assert (add_item (PInt 123) (PStr "ten") None w2 = (Raise TypeError, w2))
    as H3.
  { apply add_item_raise_run; [done|]. by rewrite Hc. }
  assert (main list_str w = (Raise TypeError, w2)) as Hrun.
  { unfold main.
    rewrite (bind_ret_run _ _ w tt w1 H1), (bind_ret_run _ _ w1 tt w2 H2).
    by apply bind_raise_run. }
  unfold w', outcome, after. rewrite Hrun.
  split; [done|]. split; [done|]. split; [done|]. split; [done|]. split.
  - exists a, b. by repeat split.
  - intros Hempty. simpl in Ha, Hb. rewrite Hempty in Ha, Hb. simpl in Ha, Hb.
    injection Ha as <-. injection Hb as <-. simpl. by rewrite Hempty.
Qed.

(** ** The further theorems at work on the sample worlds *)

Lemma dict_wf_abc : dict_wf (stock_data abc_world).
Proof.
  unfold dict_wf. apply (bool_decide_unpack _). vm_compute. exact I.
Defined.

Lemma all_positive_abc : all_positive (stock_data abc_world).
Proof. repeat constructor. Defined.


Lemma add_item_frame_witness :
  PStr "apple" <> PStr "pear"
  /\ outcome (get_qty (PStr "apple"))
       (after (add_item (PStr "pear") (PInt 2) None) logged_world)
     = outcome (get_qty (PStr "apple")) logged_world.
Proof.
  split; [discriminate|].
  apply (add_item_frame (PStr "pear") (PInt 2) (PStr "apple") None logged_world).
  discriminate.
Defined.

Lemma add_item_order_witness :
  truthy (PStr "b") = true
  /\ py_add (default (PInt 0) (dict_get (stock_data abc_world) (PStr "b")))
       (PInt 4) = Ret (PInt 7)
  /\ (PStr "b" ∈ dict_keys (stock_data abc_world) ->
      dict_keys (stock_data (after (add_item (PStr "b") (PInt 4) None) abc_world))
      = dict_keys (stock_data abc_world)).
Proof.
  split; [reflexivity|]. split; [reflexivity|].
  apply (add_item_order (PStr "b") (PInt 4) (PInt 7) None abc_world);
    reflexivity.
Defined.


(** [add_item("apple", 10)] then [remove_item("apple", 3)]: seven are left. *)
Lemma remove_item_partial_witness :
  dict_get (stock_data apple_banana_world) (PStr "apple") = Some (PInt 10)
  /\ 3 < 10
  /\ outcome (get_qty (PStr "apple"))
       (after (remove_item (PStr "apple") (PInt 3)) apple_banana_world)
     = Ret (PInt (10 - 3)).
Proof.
  split; [reflexivity|]. split; [reflexivity|].
  apply (remove_item_partial (PStr "apple") 10 3 apple_banana_world);
    reflexivity.
Defined.


Lemma remove_item_keeps_positive_witness :
  all_positive (stock_data abc_world)
  /\ all_positive
       (stock_data (after (remove_item (PStr "b") (PInt 3)) abc_world)).
Proof.
  split; [exact all_positive_abc|].
  apply (remove_item_keeps_positive (PStr "b") (PInt 3) abc_world
           all_positive_abc).
Defined.




Lemma check_low_items_monotone_witness :
  int_valued (stock_data abc_world)
  /\ 4 <= 6
  /\ exists l1 l2,
       outcome (check_low_items (Some (PInt 4))) abc_world = Ret l1
       /\ outcome (check_low_items (Some (PInt 6))) abc_world = Ret l2
       /\ l1 `sublist_of` l2.
Proof.
  split; [exact int_valued_abc|]. split; [discriminate|].
  apply (check_low_items_monotone 4 6 abc_world int_valued_abc). discriminate.
Defined.

Lemma add_item_then_check_low_witness :
  dict_wf (stock_data abc_world)
  /\ int_valued (stock_data abc_world)
  /\ truthy (PStr "a") = true
  /\ default (PInt 0) (dict_get (stock_data abc_world) (PStr "a")) = PInt 10
  /\ exists l l',
       outcome (check_low_items (Some (PInt 5))) abc_world = Ret l
       /\ outcome (check_low_items (Some (PInt 5)))
            (after (add_item (PStr "a") (PInt (-7)) None) abc_world) = Ret l'
       /\ (PStr "a" ∈ l' <-> 10 + -7 < 5)
       /\ (forall k, k <> PStr "a" -> k ∈ l' <-> k ∈ l).
Proof.
  split; [exact dict_wf_abc|]. split; [exact int_valued_abc|].
  split; [reflexivity|]. split; [reflexivity|].
  apply (add_item_then_check_low (PStr "a") 10 (-7) 5 None abc_world
           dict_wf_abc int_valued_abc); reflexivity.
Defined.

(** [main()] in a fresh process. *)
Lemma main_raises_type_error_witness :
  int_valued (stock_data (initial ∅ ∅))
  /\ outcome (main (fun _ => "[]")) (initial ∅ ∅) = Raise TypeError.
Proof.
  assert (int_valued (stock_data (initial ∅ ∅))) as Hint by apply Forall_nil_2.
  split; [exact Hint|].
  apply (main_raises_type_error (fun _ => "[]") (initial ∅ ∅) Hint).
Defined.
